(* ===================================================================== *)
(* nyu-curp-2021: the two notebooks, embedded and verified                *)
(*                                                                       *)
(*  - "Introduction to Linear Regression (Part 1)": the cells that build  *)
(*    the design matrix X and evaluate                                    *)
(*      theta = np.matmul(np.linalg.inv(np.matmul(X.T, X)),               *)
(*                        np.matmul(X.T, y))                              *)
(*  - "Part 3 -- Exercise Solutions": the loop that loads the 311 file    *)
(*    into a dictionary of column lists, and the cells that count, sort   *)
(*    and compare dates over it.                                          *)
(*                                                                       *)
(* Numbers.  The entries of an array are float64 values, of a type T that *)
(* the cells only pass on.  The float64 routines behind np.matmul and     *)
(* np.linalg.inv belong to numpy (BLAS and LAPACK), not to the notebook:  *)
(* they are parameters, and nothing is assumed about how they round, when *)
(* they overflow, or when the inversion reports a singular matrix.  What  *)
(* is proved of the theta cell is what holds for every such routine.      *)
(*                                                                       *)
(* Arrays.  A 2-D numpy array carries its shape at run time, so an        *)
(* ndarray is a matrix packed with its two dimensions; np.matmul,         *)
(* np.concatenate and np.linalg.inv test the shapes and raise.            *)
(*                                                                       *)
(* Effects.  A cell either returns a value or raises; the numpy calls     *)
(* that returned before that point are recorded, in order.                *)
(*                                                                       *)
(* Builtins.  Python's int() on a str is a parameter of the date cells:   *)
(* their theorems hold for every such function.                           *)
(* ===================================================================== *)

From Stdlib Require Import Ascii String BinNat Floats.
From mathcomp Require Import ssreflect ssrfun ssrbool eqtype ssrnat seq path.
From mathcomp Require Import choice fintype tuple finfun bigop order.
From mathcomp Require Import ssralg ssrnum ssrint rat matrix.

Set Implicit Arguments.
Unset Strict Implicit.
Unset Printing Implicit Defensive.

Import GRing.Theory Num.Theory.
Local Open Scope ring_scope.

(* --------------------------------------------------------------------- *)
(* Outcomes of a notebook cell                                            *)
(* --------------------------------------------------------------------- *)

(** The two numpy exceptions the regression cells can raise. *)
Inductive exn : Type :=
| ValueError      (* np.matmul / np.concatenate: shapes do not agree *)
| LinAlgError.    (* np.linalg.inv: not square, or "Singular matrix" *)

(** The numpy functions the cells call. *)
Inductive call : Type :=
| Expand_dims | Ones | Concatenate | Matmul | Inv.

Inductive result (T : Type) : Type :=
| Ok (v : T)
| Raise (e : exn).
Arguments Ok {T} v.
Arguments Raise {T} e.

(** A computation: the calls that returned, then its value or exception. *)
Definition comp (T : Type) : Type := (seq call * result T)%type.

Definition ret {T} (v : T) : comp T := ([::], Ok v).

Definition bind {T U} (c : comp T) (k : T -> comp U) : comp U :=
  match c with
  | (l, Ok v) => let: (l', r) := k v in (l ++ l', r)
  | (l, Raise e) => (l, Raise e)
  end.

Notation "x <- c ;; k" := (bind c (fun x => k))
  (at level 100, c at next level, right associativity).

(** The calls that returned, and how the computation ended. *)
Definition trace {T} (c : comp T) : seq call := c.1.
Definition outcome {T} (c : comp T) : result T := c.2.

(* --------------------------------------------------------------------- *)
(* numpy arrays and the calls of the regression cells                     *)
(* --------------------------------------------------------------------- *)

Section Numpy.

(** The entries of an array: numpy's float64 values. *)
Variable T : Type.

(** A 2-D array: its shape and its entries. *)
Record ndarray : Type := Array {
  nrows : nat;
  ncols : nat;
  entries : 'M[T]_(nrows, ncols)
}.

(** [A.T] is an attribute (a view), not a call. *)
Definition T_ (A : ndarray) : ndarray := Array (entries A)^T.

(** The float64 routines of numpy that the theta cell reaches: the product
    of two matrices whose inner dimensions agree, and the inverse of a
    square matrix, which is None where LAPACK reports a singular matrix.
    They are not part of the notebook and are left unspecified. *)
Record kernels : Type := Kernels {
  matmul_values : forall m n p, 'M[T]_(m, n) -> 'M[T]_(n, p) -> 'M[T]_(m, p);
  inv_values : forall n, 'M[T]_n -> option 'M[T]_n
}.

Variable K : kernels.

(** The float64 1.0 that np.ones fills its array with. *)
Variable one : T.

(** np.matmul(A, B): the inner dimensions must agree. *)
Definition np_matmul (A B : ndarray) : comp ndarray :=
  match @eqP _ (ncols A) (nrows B) with
  | ReflectT e =>
      ([:: Matmul],
       Ok (Array (matmul_values K (entries A)
                    (castmx (esym e, erefl (ncols B)) (entries B)))))
  | ReflectF _ => ([::], Raise ValueError)
  end.

(** np.linalg.inv(A): A must be square, and the inversion may report a
    singular matrix. *)
Definition np_linalg_inv (A : ndarray) : comp ndarray :=
  match @eqP _ (nrows A) (ncols A) with
  | ReflectT e =>
      if inv_values K (castmx (e, erefl (ncols A)) (entries A)) is Some Ai
      then ([:: Inv], Ok (Array Ai))
      else ([::], Raise LinAlgError)
  | ReflectF _ => ([::], Raise LinAlgError)
  end.

(** The n x 1 array with the entries of x. *)
Definition column (x : seq T) : 'cV[T]_(size x) :=
  \matrix_(i, j) tnth (in_tuple x) i.





(** The cell
      theta = np.matmul(np.linalg.inv(np.matmul(X.T, X)), np.matmul(X.T, y))
    Python evaluates the arguments of a call from left to right. *)
Definition theta (X y : ndarray) : comp ndarray :=
  G <- np_matmul (T_ X) X ;;
  Gi <- np_linalg_inv G ;;
  b <- np_matmul (T_ X) y ;;
  np_matmul Gi b.

(** The specification's ShapeMismatch contract on a run: a shape error,
    raised before any numpy call has returned. *)
Definition shape_error_first (c : comp ndarray) : Prop :=
  trace c = [::] /\ outcome c = Raise ValueError.

(** The array the X cell builds: the inputs, then a column of ones. *)
Definition design (x : seq T) : 'M[T]_(size x, 1 + 1) :=
  row_mx (column x) (const_mx one).

End Numpy.


(** The toy inputs at small size, in float64: x = [0, 1, 2, 3, 4], and the
    array the X cell builds from them. *)
Definition toy_x : seq float := [:: 0; 1; 2; 3; 4]%float.
Definition toy_X : 'M[float]_(5, 1 + 1) := design 1%float toy_x.

(** A target array of the wrong length for toy_X: 3 rows. *)
Definition short_y : 'cV[float]_3 := column [:: 5; 7; 9]%float.

(* --------------------------------------------------------------------- *)
(* The 311 notebook: loading the file into a dictionary of columns        *)
(* --------------------------------------------------------------------- *)

Module Load311.

Local Close Scope ring_scope.

(** A Python str: a sequence of Unicode code points. *)
Definition char : Type := N.
Definition str : Type := seq char.

Definition tab : char := 9%num.

(** str.isspace() on one code point (the characters str.strip() removes). *)
Definition isspace (c : char) : bool :=
  (c \in [:: 9; 10; 11; 12; 13; 28; 29; 30; 31; 32; 133; 160; 5760;
             8232; 8233; 8239; 8287; 12288]%num)
  || (N.leb 8192 c && N.leb c 8202).

Definition lstrip (s : str) : str := drop (find (predC isspace) s) s.
Definition rstrip (s : str) : str := rev (lstrip (rev s)).
Definition strip (s : str) : str := rstrip (lstrip s).

(** s.split(sep) for a one-character separator: one more field than there
    are separators, so never an empty list. *)
Fixpoint split (sep : char) (s : str) : seq str :=
  if s is c :: s' then
    if c == sep then [::] :: split sep s'
    else if split sep s' is f :: fs then (c :: f) :: fs else [:: [:: c]]
  else [:: [::]].

(** line.strip().split('\t') *)
Definition fields (line : str) : seq str := split tab (strip line).

(** A dict from column name to list of values, in insertion order. *)
Definition dict : Type := seq (str * seq str).

Definition keys (d : dict) : seq str := unzip1 d.

(** data[k]; None stands for KeyError. *)
Fixpoint get (d : dict) (k : str) : option (seq str) :=
  if d is (k', v) :: d' then if k' == k then Some v else get d' k else None.

(** data.setdefault(k, list()) *)
Definition setdefault (d : dict) (k : str) : dict :=
  if get d k is Some _ then d else rcons d (k, [::]).

(** data[k].append(x); None stands for KeyError. *)
Fixpoint append (d : dict) (k : str) (x : str) : option dict :=
  if d is (k', v) :: d' then
    if k' == k then Some ((k', rcons v x) :: d')
    else omap (cons (k', v)) (append d' k x)
  else None.

(** for key, value in zip(header, line): data[key].append(value) *)
Definition add_row (header line : seq str) (data : dict) : option dict :=
  foldl (fun od kv => obind (fun d => append d kv.1 kv.2) od)
        (Some data) (zip header line).

(** The variables the loop assigns: header is unbound before line 0. *)
Record state : Type := State { header : option (seq str); data : dict }.

(** One iteration of  for i, line in enumerate(fp.readlines()).
    None stands for an exception (NameError on header, KeyError). *)
Definition step (st : state) (i : nat) (line : str) : option state :=
  let line' := fields line in
  if i == 0 then
    Some (State (Some line') (foldl setdefault (data st) line'))
  else if header st is Some h then
    omap (State (header st)) (add_row h line' (data st))
  else None.

Fixpoint loop (st : state) (i : nat) (lines : seq str) : option state :=
  if lines is line :: rest then
    obind (fun st' => loop st' i.+1 rest) (step st i line)
  else Some st.

(** The whole cell, from  data = dict()  on; lines is fp.readlines(). *)
Definition load (lines : seq str) : option dict :=
  omap data (loop (State None [::]) 0 lines).

(** The field of a split line that zip pairs with column k of header h. *)
Definition field_of (h : seq str) (k : str) (line : seq str) : str :=
  nth [::] line (index k h).

(** zip reaches column k of header h on this line. *)
Definition reaches (h : seq str) (k : str) (line : seq str) : bool :=
  (k \in h) && (index k h < size line).

End Load311.

(** A file whose header names the same column twice:
    "a\ta\n" then "1\t2\n". *)
Definition dup_header : Load311.str := [:: 97; 9; 97; 10]%num.
Definition dup_row : Load311.str := [:: 49; 9; 50; 10]%num.

(** A header with two different names: "a\tb\n". *)
Definition ab_header : Load311.str := [:: 97; 9; 98; 10]%num.

(* --------------------------------------------------------------------- *)
(* The 311 notebook: the question cells                                   *)
(* --------------------------------------------------------------------- *)

Module Analysis311.

Import Load311.
Local Close Scope ring_scope.

(** A Python string literal, as code points. *)
Definition py (s : string) : str :=
  [seq N_of_ascii c | c <- list_ascii_of_string s].

(** The exceptions the question cells can raise. *)
Inductive pyexn : Type :=
| Key_error            (* data[k]: no such column *)
| Index_error          (* l[i]: i is not below len(l) *)
| Value_error          (* unpacking, int(), min() of an empty list *)
| Zero_division_error. (* x / 0 *)

Inductive res (T : Type) : Type :=
| Val (v : T)
| Exc (e : pyexn).
Arguments Val {T} v.
Arguments Exc {T} e.

Definition rbind {T U} (r : res T) (k : T -> res U) : res U :=
  match r with
  | Val v => k v
  | Exc e => Exc e
  end.

Notation "x <~ r ;; k" := (rbind r (fun x => k))
  (at level 100, r at next level, right associativity).

(** data[k] *)
Definition lookup (d : dict) (k : str) : res (seq str) :=
  if get d k is Some v then Val v else Exc Key_error.

(** l[i] for an index i >= 0 *)
Definition getitem {T} (l : seq T) (i : nat) : res T :=
  if drop i l is x :: _ then Val x else Exc Index_error.

(** a, b, c = l *)
Definition unpack3 (l : seq str) : res (str * str * str) :=
  if l is [:: a; b; c] then Val (a, b, c) else Exc Value_error.

(** s.split(): the maximal runs of non-whitespace characters. *)
Fixpoint split_ws (s : str) : seq str :=
  if s is c :: s' then
    if isspace c then split_ws s'
    else if s' is c' :: _ then
      if isspace c' then [:: c] :: split_ws s'
      else if split_ws s' is w :: ws then (c :: w) :: ws else [:: [:: c]]
    else [:: [:: c]]
  else [::].

Definition slash : char := 47%num.

(** len(data['Unique Key']) *)
Definition n_requests (d : dict) : res nat :=
  v <~ lookup d (py "Unique Key") ;; Val (size v).

Section Dates.

(** int(s) on a str: its value, or None for ValueError. *)
Variable py_int : str -> option int.

Definition int_ (s : str) : res int :=
  if py_int s is Some z then Val z else Exc Value_error.

(** The day a well-formed timestamp shows, as the "most recent day" cell
    reads it:
      date, time, am_pm = timestamp.split()
      month, day, year = date.split('/')
      int(day) *)
Definition created_day (timestamp : str) : res int :=
  t <~ unpack3 (split_ws timestamp) ;;
  let: (date, time, am_pm) := t in
  t' <~ unpack3 (split slash date) ;;
  let: (month, day, year) := t' in
  int_ day.

(** One iteration of the loop of the "most recent day" cell:
      date, time, am_pm = timestamp.split()
      month, day, year = date.split('/')
      if int(day) > last_day: last_day = int(day) *)
Definition last_day_step (last_day : int) (timestamp : str) : res int :=
  t <~ unpack3 (split_ws timestamp) ;;
  let: (date, time, am_pm) := t in
  t' <~ unpack3 (split slash date) ;;
  let: (month, day, year) := t' in
  z <~ int_ day ;;
  if (last_day < z)%R then int_ day else Val last_day.

Fixpoint last_day_loop (last_day : int) (created : seq str) : res int :=
  if created is timestamp :: rest then
    l <~ last_day_step last_day timestamp ;; last_day_loop l rest
  else Val last_day.

(** The cell: last_day = 0, then the loop over data['Created Date']. *)
Definition last_day (d : dict) : res int :=
  created <~ lookup d (py "Created Date") ;; last_day_loop 0%R created.

(** The body shared by the three "days open" loops, for row i and a closed
    timestamp that is not '':
      date, time, am_pm = timestamp.split()
      month, close_day, year = date.split('/')
      open_date = data['Created Date'][i]
      month, open_day, year = open_date.split('/')
      int(close_day) - int(open_day) *)
Definition day_diff (d : dict) (i : nat) (timestamp : str) : res int :=
  t <~ unpack3 (split_ws timestamp) ;;
  let: (date, time, am_pm) := t in
  t' <~ unpack3 (split slash date) ;;
  let: (month, close_day, year) := t' in
  created <~ lookup d (py "Created Date") ;;
  open_date <~ getitem created i ;;
  t'' <~ unpack3 (split slash open_date) ;;
  let: (month', open_day, year') := t'' in
  c <~ int_ close_day ;;
  o <~ int_ open_day ;;
  Val (c - o)%R.

(** for i, timestamp in enumerate(data['Closed Date']):
      if timestamp != '': ... days_open.append(...) *)
Fixpoint days_open_loop (d : dict) (i : nat) (closed : seq str)
    (days_open : seq int) : res (seq int) :=
  if closed is timestamp :: rest then
    if timestamp != [::] then
      z <~ day_diff d i timestamp ;;
      days_open_loop d i.+1 rest (rcons days_open z)
    else days_open_loop d i.+1 rest days_open
  else Val days_open.

Definition days_open (d : dict) : res (seq int) :=
  closed <~ lookup d (py "Closed Date") ;; days_open_loop d 0 closed [::].

(** weird_indexes[i] = diff on a dict from row index to difference. *)
Fixpoint setitem (w : seq (nat * int)) (i : nat) (z : int) :
    seq (nat * int) :=
  if w is (j, z') :: w' then
    if j == i then (j, z) :: w' else (j, z') :: setitem w' i z
  else [:: (i, z)].

(** The loop of the "closed before opened" cell. *)
Fixpoint weird_loop (d : dict) (i : nat) (closed : seq str)
    (weird_indexes : seq (nat * int)) : res (seq (nat * int)) :=
  if closed is timestamp :: rest then
    if timestamp != [::] then
      diff <~ day_diff d i timestamp ;;
      weird_loop d i.+1 rest
        (if (diff < 0)%R then setitem weird_indexes i diff else weird_indexes)
    else weird_loop d i.+1 rest weird_indexes
  else Val weird_indexes.

Definition weird_indexes (d : dict) : res (seq (nat * int)) :=
  closed <~ lookup d (py "Closed Date") ;; weird_loop d 0 closed [::].

(** The loop of "TAKE 2":
      for i, status in enumerate(data['Status']):
        if status == 'Closed':
          close_timestamp = data['Closed Date'][i]
          if close_timestamp != '': ... days_open.append(...) *)
Fixpoint days_open2_loop (d : dict) (i : nat) (statuses : seq str)
    (days_open : seq int) : res (seq int) :=
  if statuses is status :: rest then
    if status == py "Closed" then
      closed <~ lookup d (py "Closed Date") ;;
      close_timestamp <~ getitem closed i ;;
      if close_timestamp != [::] then
        z <~ day_diff d i close_timestamp ;;
        days_open2_loop d i.+1 rest (rcons days_open z)
      else days_open2_loop d i.+1 rest days_open
    else days_open2_loop d i.+1 rest days_open
  else Val days_open.

Definition days_open2 (d : dict) : res (seq int) :=
  statuses <~ lookup d (py "Status") ;; days_open2_loop d 0 statuses [::].

End Dates.

(** What the three prints at the end of a "days open" cell read:
    sum(days_open), len(days_open) (the average is their quotient),
    min(days_open) and max(days_open). *)
Definition summary (days_open : seq int) :
    res (int * nat * int * int) :=
  if days_open is z :: zs then
    Val (\sum_(x <- days_open) x, size days_open,
         foldl Order.min z zs, foldl Order.max z zs)%R
  else Exc Zero_division_error.

(** A dict with values of type V, in insertion order. *)
Section Counting.

Variable V : Type.

Fixpoint cget (c : seq (str * V)) (k : str) : option V :=
  if c is (k', v) :: c' then if k' == k then Some v else cget c' k else None.

(** c[k] = v *)
Fixpoint cset (c : seq (str * V)) (k : str) (v : V) : seq (str * V) :=
  if c is (k', v') :: c' then
    if k' == k then (k', v) :: c' else (k', v') :: cset c' k v
  else [:: (k, v)].

(** c.setdefault(k, v) *)
Definition csetdefault (c : seq (str * V)) (k : str) (v : V) :
    seq (str * V) :=
  if cget c k is Some _ then c else rcons c (k, v).

(** dict(items) *)
Definition dict_of (items : seq (str * V)) : seq (str * V) :=
  foldl (fun c kv => cset c kv.1 kv.2) [::] items.

End Counting.

(** complaint_counts.setdefault(complaint, 0)
    complaint_counts[complaint] += 1 *)
Definition count_step (c : seq (str * nat)) (complaint : str) :
    res (seq (str * nat)) :=
  let c' := csetdefault c complaint 0 in
  if cget c' complaint is Some n then Val (cset c' complaint n.+1)
  else Exc Key_error.

Fixpoint complaint_counts_loop (c : seq (str * nat)) (complaints : seq str) :
    res (seq (str * nat)) :=
  if complaints is complaint :: rest then
    c' <~ count_step c complaint ;; complaint_counts_loop c' rest
  else Val c.

Definition complaint_counts (d : dict) : res (seq (str * nat)) :=
  complaints <~ lookup d (py "Complaint Type") ;;
  complaint_counts_loop [::] complaints.

(** sorted(items, key=lambda item: item[1], reverse=True): a stable sort,
    largest count first. *)
Definition sorted_by_count (items : seq (str * nat)) : seq (str * nat) :=
  sort (fun a b => b.2 <= a.2) items.

(** top_complaints = dict(... sorted(complaint_counts.items(), ...)) *)
Definition top_complaints (c : seq (str * nat)) : seq (str * nat) :=
  dict_of (sorted_by_count c).

(** The lines printed: those with i < 5. *)
Definition printed (top : seq (str * nat)) : seq (str * nat) :=
  [seq kv.2 | kv <- zip (iota 0 (size top)) top & kv.1 < 5].

(** closed = data['Status'].count('Closed') and the ratio closed / len:
    numerator and denominator. *)
Definition closed_share (d : dict) : res (nat * nat) :=
  statuses <~ lookup d (py "Status") ;;
  let closed := count_mem (py "Closed") statuses in
  statuses' <~ lookup d (py "Status") ;;
  if size statuses' is 0 then Exc Zero_division_error
  else Val (closed, size statuses').

(** The channel cell: for each member of set(l), in an order Python does
    not fix (here: of first occurrence), its count and len(l). *)
Definition channel_counts (d : dict) : res (seq (str * nat * nat)) :=
  l <~ lookup d (py "Open Data Channel Type") ;;
  Val [seq (channel, count_mem channel l, size l) | channel <- rev (undup (rev l))].

(** The format of the file's dates, '01/09/2021 11:56:15 AM':
    month/day/year, a space, the time, a space, AM or PM. *)
Definition timestamp_of (month day year time am_pm : str) : str :=
  month ++ slash :: day ++ slash :: year ++ 32%num :: time ++ 32%num :: am_pm.

(** int() on a non-empty string of ASCII digits; this instance of the
    builtin answers None on every other string. *)
Definition int_digits (s : str) : option int :=
  if s is _ :: _ then
    if all (fun c => N.leb 48 c && N.leb c 57) s then
      Some (Posz (foldl (fun a c => 10 * a + nat_of_bin (c - 48)%num) 0 s))
    else None
  else None.

(** Four lines in the format of the file: a request closed five days after
    it was created, one with the 1900 sentinel as closed date, and one that
    is still open. *)
Definition sample_lines : seq str :=
  [:: py "Unique Key"
        ++ tab :: py "Created Date" ++ tab :: py "Closed Date"
        ++ tab :: py "Status" ++ tab :: py "Complaint Type"
        ++ tab :: py "Open Data Channel Type" ++ [:: 10%num];
      py "1" ++ tab :: py "01/09/2021 11:56:15 AM"
        ++ tab :: py "01/14/2021 06:41:59 AM" ++ tab :: py "Closed"
        ++ tab :: py "Noise" ++ tab :: py "ONLINE" ++ [:: 10%num];
      py "2" ++ tab :: py "01/09/2021 08:06:00 AM"
        ++ tab :: py "01/01/1900 12:00:00 AM" ++ tab :: py "Open"
        ++ tab :: py "Noise" ++ tab :: py "PHONE" ++ [:: 10%num];
      py "3" ++ tab :: py "01/07/2021 11:29:00 AM"
        ++ tab :: [::] ++ tab :: py "Pending"
        ++ tab :: py "Heat" ++ tab :: py "ONLINE" ++ [:: 10%num]].

Definition sample_data : dict :=
  if load sample_lines is Some d then d else [::].

End Analysis311.

(* ===================================================================== *)
(* Facts about the embedding                                              *)
(* ===================================================================== *)

(* --------------------------------------------------------------------- *)
(* What the calls return on arrays of known shape                         *)
(* --------------------------------------------------------------------- *)

Section NumpyCalls.

Variables (T : Type) (K : kernels T).
Implicit Types (m n p k : nat).

Lemma np_matmulE m n p (A : 'M[T]_(m, n)) (B : 'M[T]_(n, p)) :
  np_matmul K (Array A) (Array B) =
    ([:: Matmul], Ok (Array (matmul_values K A B))).
Proof.
rewrite /np_matmul /=; case: eqP => // e.
by rewrite (eq_axiomK e) castmx_id.
Qed.

Lemma np_matmul_mismatch m n n' p (A : 'M[T]_(m, n)) (B : 'M[T]_(n', p)) :
  n != n' -> np_matmul K (Array A) (Array B) = ([::], Raise ValueError).
Proof. by rewrite /np_matmul /=; case: eqP. Qed.

Lemma np_linalg_invE n (A : 'M[T]_n) :
  np_linalg_inv K (Array A) =
    if inv_values K A is Some Ai then ([:: Inv], Ok (Array Ai))
    else ([::], Raise LinAlgError).
Proof.
rewrite /np_linalg_inv /=; case: eqP => // e.
by rewrite (eq_axiomK e) castmx_id.
Qed.





(** The theta cell on an X of n rows and a y of n' rows, n <> n': the Gram
    product and the inversion come first, and the product X.T y, which is
    the call that compares n and n', is reached only when the inversion
    has returned. *)
Lemma theta_rows_differ n n' k p (X : 'M[T]_(n, k)) (y : 'M[T]_(n', p)) :
  n != n' ->
  theta K (Array X) (Array y) =
    if inv_values K (matmul_values K X^T X) is Some _
    then ([:: Matmul; Inv], Raise ValueError)
    else ([:: Matmul], Raise LinAlgError).
Proof.
move=> neq; rewrite /theta /T_ /= np_matmulE /= np_linalg_invE.
by case: (inv_values K _) => [Gi|] //=; rewrite np_matmul_mismatch.
Qed.

End NumpyCalls.


(* --------------------------------------------------------------------- *)
(* The loading loop                                                       *)
(* --------------------------------------------------------------------- *)

Section Load311Facts.

Import Load311.
Local Close Scope ring_scope.

Lemma get_keys (d : dict) (k : str) : isSome (get d k) = (k \in keys d).
Proof.
elim: d => [|[k' v] d IHd] //=.
by rewrite in_cons eq_sym; case: eqP.
Qed.

Lemma appendP (d : dict) (k x : str) (v : seq str) :
  get d k = Some v ->
  exists d', [/\ append d k x = Some d', keys d' = keys d
    & forall k', get d' k' = if k' == k then Some (rcons v x) else get d k'].
Proof.
elim: d => [|[k0 v0] d IHd] //=.
case: (eqVneq k0 k) => [eq0 [eqv] | neq get_k].
  exists ((k0, rcons v0 x) :: d); split; [by [] | by [] | move=> k' /=].
  by rewrite eq0 eqv eq_sym; case: eqP.
have [d' [-> eq_keys get_d']] := IHd get_k.
exists ((k0, v0) :: d'); split=> /=.
- by [].
- by rewrite eq_keys.
move=> k'; rewrite get_d'; case: (eqVneq k0 k') => // eq0.
by rewrite -eq0 (negPf neq).
Qed.

Lemma foldl_setdefault (h : seq str) (d : dict) :
  uniq (keys d ++ h) ->
  foldl setdefault d h = d ++ [seq (k, [::]) | k <- h].
Proof.
elim: h d => [|k h IHh] d /=; first by rewrite !cats0.
rewrite -cat_rcons => uniq_dh.
have: k \notin keys d.
  by move: uniq_dh; rewrite cat_uniq rcons_uniq => /and3P[/andP[]].
rewrite /setdefault -get_keys; case: (get d k) => // _.
by rewrite IHh /keys /unzip1 ?map_rcons // cat_rcons.
Qed.

Lemma get_map_nil (h : seq str) (k : str) :
  get [seq (k', [::]) | k' <- h] k = if k \in h then Some [::] else None.
Proof.
elim: h => [|k0 h IHh] //=.
by rewrite in_cons eq_sym; case: eqP.
Qed.

Lemma add_rowP (h line : seq str) (d : dict) :
  uniq h -> {subset h <= keys d} ->
  exists d', [/\ add_row h line d = Some d', keys d' = keys d
    & forall k, get d' k =
        if reaches h k line then omap (rcons^~ (field_of h k line)) (get d k)
        else get d k].
Proof.
rewrite /reaches /field_of.
elim: h line d => [|k0 h IHh] line d.
  by move=> _ _; exists d; split=> //; case: line.
case: line => [|x line] /= /andP[k0_notin uniq_h] sub_h.
  by exists d; split=> // k; rewrite ltn0 andbF.
have: isSome (get d k0) by rewrite get_keys sub_h ?mem_head.
case get_k0: (get d k0) => [v|] // _.
have [d1 [app1 keys1 get1]] := appendP x get_k0.
have sub1: {subset h <= keys d1}.
  by move=> k k_in; rewrite keys1 sub_h // in_cons k_in orbT.
have [d' [row' keys' get']] := IHh line d1 uniq_h sub1.
exists d'; split; rewrite /add_row /= ?app1 -?keys1 //.
move=> k; rewrite get' get1 in_cons [k0 == k]eq_sym.
case: (eqVneq k k0) => [->|neq] /=; last by [].
by rewrite (negPf k0_notin) get_k0.
Qed.

Lemma loop_rows (h : seq str) (rest done : seq str) (d : dict) (i : nat) :
  uniq h -> keys d = h ->
  (forall k, k \in h ->
     get d k = Some [seq field_of h k (fields l)
                    | l <- done & reaches h k (fields l)]) ->
  exists d', [/\ loop (State (Some h) d) i.+1 rest = Some (State (Some h) d'),
    keys d' = h
    & forall k, k \in h ->
        get d' k = Some [seq field_of h k (fields l)
                        | l <- done ++ rest & reaches h k (fields l)]].
Proof.
move=> uniq_h.
elim: rest done d i => [|l rest IHr] done d i keys_d get_d /=.
  by exists d; split=> // k; rewrite cats0; apply: get_d.
have sub_h: {subset h <= keys d} by move=> k; rewrite keys_d.
have [d1 [row1 keys1 get1]] := add_rowP (fields l) uniq_h sub_h.
have get1' k : k \in h ->
    get d1 k = Some [seq field_of h k (fields l0)
                    | l0 <- rcons done l & reaches h k (fields l0)].
  move=> k_in; rewrite get1 get_d // filter_rcons.
  by case: ifP => //= _; rewrite map_rcons.
have [d' [loop' keys' get']] :=
  IHr (rcons done l) d1 i.+1 (etrans keys1 keys_d) get1'.
exists d'; split=> //; first by rewrite /step /= row1 /=.
by move=> k k_in; rewrite -cat_rcons get'.
Qed.

Lemma loadP (l0 : str) (rest : seq str) :
  uniq (fields l0) ->
  exists d, [/\ load (l0 :: rest) = Some d, keys d = fields l0
    & forall k, k \in fields l0 ->
        get d k = Some [seq field_of (fields l0) k (fields l)
                       | l <- rest & reaches (fields l0) k (fields l)]].
Proof.
move=> uniq_h; set h := fields l0 in uniq_h *.
have init: foldl setdefault [::] h = [seq (k, [::]) | k <- h].
  by rewrite foldl_setdefault.
have keys0: keys [seq (k, [::]) | k <- h] = h.
  by rewrite /keys /unzip1 -map_comp map_id.
have get0 k : k \in h ->
    get [seq (k, [::]) | k <- h] k =
      Some [seq field_of h k (fields l) | l <- [::] & reaches h k (fields l)].
  by move=> k_in; rewrite get_map_nil k_in.
have [d [loop_d keys_d get_d]] := loop_rows rest 0 uniq_h keys0 get0.
by exists d; split=> //; rewrite /load /= /step /= -/h init loop_d.
Qed.

Lemma reaches_full (h : seq str) (k : str) (line : seq str) :
  k \in h -> size h <= size line -> reaches h k line.
Proof.
move=> k_in le_size; rewrite /reaches k_in /=.
by apply: leq_trans le_size; rewrite index_mem.
Qed.

(** The loop never looks up a missing key: every name of the header was
    entered by setdefault, and append keeps the keys. *)
Lemma keys_setdefault (d : dict) (k : str) :
  keys (setdefault d k) =i k :: [seq k' <- keys d | k' != k].
Proof.
move=> k'; rewrite /setdefault in_cons mem_filter.
case get_k: (get d k) (get_keys d k) => [v|] /= /esym in_k.
  by case: (eqVneq k' k) => [->|].
rewrite /keys /unzip1 map_rcons mem_rcons in_cons.
by case: (eqVneq k' k).
Qed.

Lemma keys_foldl_setdefault (h : seq str) (d : dict) :
  {subset keys d <= keys (foldl setdefault d h)} /\
  {subset h <= keys (foldl setdefault d h)}.
Proof.
elim: h d => [|k h IHh] d /=; first by split.
have [sub_d sub_h] := IHh (setdefault d k).
split=> k' k'_in; last first.
  move: k'_in; rewrite in_cons => /orP[/eqP->|]; last exact: sub_h.
  by apply: sub_d; rewrite keys_setdefault mem_head.
apply: sub_d; rewrite keys_setdefault in_cons mem_filter k'_in andbT.
exact: orbN.
Qed.

Lemma add_row_total (h line : seq str) (d : dict) :
  {subset h <= keys d} ->
  exists2 d', add_row h line d = Some d' & keys d' = keys d.
Proof.
elim: h line d => [|k0 h IHh] line d sub_h.
  by exists d => //; case: line.
case: line => [|x line]; first by exists d.
have: isSome (get d k0) by rewrite get_keys sub_h ?mem_head.
case get_k0: (get d k0) => [v|] // _.
have [d1 [app1 keys1 _]] := appendP x get_k0.
have sub1: {subset h <= keys d1}.
  by move=> k k_in; rewrite keys1 sub_h // in_cons k_in orbT.
have [d' row' keys'] := IHh line d1 sub1.
by exists d'; rewrite /add_row /= ?app1 -?keys1.
Qed.

Lemma loop_total (h : seq str) (rest : seq str) (d : dict) (i : nat) :
  {subset h <= keys d} ->
  exists d', loop (State (Some h) d) i.+1 rest = Some (State (Some h) d').
Proof.
elim: rest d i => [|l rest IHr] d i sub_h /=; first by exists d.
have [d1 row1 keys1] := add_row_total (fields l) sub_h.
have sub1: {subset h <= keys d1} by move=> k; rewrite keys1; apply: sub_h.
have [d' loop'] := IHr d1 i.+1 sub1.
by exists d'; rewrite /step /= row1 /=.
Qed.

End Load311Facts.

(* ===================================================================== *)
(* The claims                                                             *)
(* ===================================================================== *)

(** C5 (as amended).  When the row count of X differs from the number of
    rows of y, the theta cell raises and returns no theta: nothing is
    truncated or broadcast.  The mismatch is found at the product X^T y,
    after X^T X has been formed and np.linalg.inv has been called on it:
    the run ends in numpy's shape ValueError when the inversion returns,
    and in the inversion's own LinAlgError when it raises. *)
Theorem shape_mismatch_raises (T : Type) (K : kernels T) n n' k p
    (X : 'M[T]_(n, k)) (y : 'M[T]_(n', p)) :
  n != n' ->
  theta K (Array X) (Array y) =
    (if inv_values K (matmul_values K X^T X) is Some _
     then ([:: Matmul; Inv], Raise ValueError)
     else ([:: Matmul], Raise LinAlgError)) /\
  forall t, outcome (theta K (Array X) (Array y)) <> Ok t.
Proof.
move=> neq; rewrite theta_rows_differ //; split=> // t.
by case: (inv_values K _).
Qed.

(** C5 on the toy X (5 rows) and a y of 3 rows, for every float64 routine. *)
Lemma shape_mismatch_raises_witness :
  (5 != 3)%N /\
  forall K : kernels float,
    theta K (Array toy_X) (Array short_y) =
      (if inv_values K (matmul_values K toy_X^T toy_X) is Some _
       then ([:: Matmul; Inv], Raise ValueError)
       else ([:: Matmul], Raise LinAlgError)) /\
    forall t, outcome (theta K (Array toy_X) (Array short_y)) <> Ok t.
Proof.
have neq : (5 != 3)%N by [].
by split=> [|K]; [exact: neq | exact: (shape_mismatch_raises K toy_X short_y neq)].
Defined.

(** C5 as stated fails: with 5 rows in X and 3 rows in y, np.matmul(X.T, X)
    has returned before anything is raised, whatever the float64 routines
    compute, so the error is never a shape error found before any numeric
    work. *)
Lemma shape_mismatch_found_late :
  (forall K : kernels float,
     theta K (Array toy_X) (Array short_y)
       = ([:: Matmul; Inv], Raise ValueError) \/
     theta K (Array toy_X) (Array short_y)
       = ([:: Matmul], Raise LinAlgError)) /\
  ~ (exists K : kernels float,
       shape_error_first (theta K (Array toy_X) (Array short_y))).
Proof.
have run (K : kernels float) := @theta_rows_differ _ K _ _ _ _ toy_X short_y isT.
split=> [K | [K]]; rewrite /shape_error_first run.
  by case: (inv_values K _); [left | right].
by case: (inv_values K _) => [_|] [].
Qed.


Section LoadClaim.

Import Load311.
Local Close Scope ring_scope.

(** C10 (as amended).  When the names in the header are pairwise distinct,
    the loading loop ends without an exception and the dictionary has the
    header's names as keys.  Every further line that splits into at least
    as many tab-separated fields as the header makes the list of each
    column k one entry longer: the line's field at k's position in the
    header (fields beyond the header are dropped by zip).  Hence, when
    every data line has at least that many fields, the list of column k
    holds that field of each data line in order: all lists have the number
    of data lines as length, and index i of every list is row i. *)
Theorem load_columns_aligned (l0 : str) (rest : seq str) :
  uniq (fields l0) ->
  exists d : dict,
    [/\ load (l0 :: rest) = Some d,
        keys d = fields l0,
        forall line, size (fields l0) <= size (fields line) ->
        exists d' : dict,
          load (l0 :: rcons rest line) = Some d' /\
          forall k, k \in fields l0 ->
            exists2 v, get d k = Some v
              & get d' k =
                  Some (rcons v (nth [::] (fields line) (index k (fields l0))))
      & all (fun l => size (fields l0) <= size (fields l)) rest ->
        forall k, k \in fields l0 ->
          get d k =
            Some [seq nth [::] (fields l) (index k (fields l0)) | l <- rest]].
Proof.
move=> uniq_h; have [d [load_d keys_d get_d]] := loadP rest uniq_h.
exists d; split=> // [line le_line | all_rest k k_in]; last first.
  rewrite get_d //; congr (Some (map _ _)); apply/all_filterP.
  by apply: sub_all all_rest => l; apply: reaches_full.
have [d' [load_d' _ get_d']] := loadP (rcons rest line) uniq_h.
exists d'; split=> // k k_in; rewrite get_d // get_d' //.
eexists; first by [].
by rewrite filter_rcons reaches_full // map_rcons.
Qed.

(** C10 on the file "a<TAB>b", "1<TAB>2". *)
Lemma load_columns_aligned_witness :
  uniq (fields ab_header) /\
  exists d : dict,
    [/\ load [:: ab_header; dup_row] = Some d, keys d = fields ab_header
      & forall k, k \in fields ab_header ->
          get d k =
            Some [seq nth [::] (fields l) (index k (fields ab_header))
                 | l <- [:: dup_row]]].
Proof.
have uniq_h : uniq (fields ab_header) by [].
have [d [load_d keys_d _ cols]] := load_columns_aligned [:: dup_row] uniq_h.
by split; [exact: uniq_h | exists d; split=> //; exact: cols].
Defined.

(** C10 as stated fails when the header repeats a name: after the header
    "a<TAB>a" the single data line "1<TAB>2" has as many fields as the
    header, yet the one list of column "a" grows by two entries, so its
    length is not the number of data lines. *)
Lemma duplicate_header_misaligned :
  [/\ size (fields dup_header) <= size (fields dup_row),
      load [:: dup_header; dup_row] =
        Some [:: ([:: 97%num], [:: [:: 49%num]; [:: 50%num]])]
    & omap (all (fun kv => size kv.2 == 1)) (load [:: dup_header; dup_row])
        = Some false].
Proof. by []. Qed.

(** X1.  The loading loop never raises on any list of lines: header is
    bound by line 0 before any other line reads it, and every key that
    data[key] looks up was entered by setdefault. *)
Theorem load_never_raises (lines : seq str) :
  exists d : dict, load lines = Some d.
Proof.
case: lines => [|l0 rest]; first by exists [::].
have [_ sub_h] := keys_foldl_setdefault (fields l0) [::].
have [d loop_d] := loop_total rest 0 sub_h.
by exists d; rewrite /load /= /step /= loop_d.
Qed.

End LoadClaim.

(* ===================================================================== *)
(* Further properties of the notebooks                                    *)
(* ===================================================================== *)

Local Close Scope ring_scope.

(* --------------------------------------------------------------------- *)
(* More on the loading loop                                               *)
(* --------------------------------------------------------------------- *)

Section LoadMore.

Import Load311 Analysis311.

Lemma lstrip_cat_space (w s : str) :
  all isspace w -> lstrip (w ++ s) = lstrip s.
Proof.
move=> sp_w; rewrite /lstrip find_cat has_predC sp_w /= drop_cat.
by rewrite ltnNge leq_addr /= addKn.
Qed.

Lemma lstrip_space (w : str) : all isspace w -> lstrip w = [::].
Proof.
move=> sp_w; rewrite /lstrip; have: ~~ has (predC isspace) w.
  by rewrite has_predC sp_w.
by move/hasNfind->; rewrite drop_size.
Qed.

Lemma lstrip_has (s w : str) :
  has (predC isspace) s -> lstrip (s ++ w) = lstrip s ++ w.
Proof.
by move=> has_s; rewrite /lstrip find_cat has_s drop_cat -has_find has_s.
Qed.

Lemma rstrip_cat_space (s w : str) :
  all isspace w -> rstrip (s ++ w) = rstrip s.
Proof. by move=> sp_w; rewrite /rstrip rev_cat lstrip_cat_space ?all_rev. Qed.

Lemma strip_space (w1 s w2 : str) :
  all isspace w1 -> all isspace w2 -> strip (w1 ++ s ++ w2) = strip s.
Proof.
move=> sp1 sp2; rewrite /strip lstrip_cat_space //.
case has_s: (has (predC isspace) s).
  by rewrite lstrip_has // rstrip_cat_space.
have sp_s: all isspace s by rewrite -[all _ _]negbK -has_predC has_s.
by rewrite !lstrip_space // all_cat sp_s.
Qed.

Lemma size_split (sep : char) (s : str) :
  size (split sep s) = (count_mem sep s).+1.
Proof.
elim: s => [|c s IHs] //=.
case: eqP => _ /=; first by rewrite IHs.
by case: (split sep s) IHs => [|f fs] //= ->.
Qed.

Lemma keys_setdefault_eq (d : dict) (k : str) :
  keys (setdefault d k) = if k \in keys d then keys d else rcons (keys d) k.
Proof.
rewrite /setdefault -get_keys; case: (get d k) => //=.
by rewrite /keys /unzip1 map_rcons.
Qed.

Lemma uniq_keys_foldl (h : seq str) (d : dict) :
  uniq (keys d) -> uniq (keys (foldl setdefault d h)).
Proof.
elim: h d => [|k h IHh] d //= uniq_d; apply: IHh.
rewrite keys_setdefault_eq; case: ifP => // /negbT k_notin.
by rewrite rcons_uniq k_notin.
Qed.

Lemma mem_keys_foldl (h : seq str) (d : dict) :
  keys (foldl setdefault d h) =i keys d ++ h.
Proof.
elim: h d => [|k h IHh] d k' /=; first by rewrite cats0.
rewrite IHh !mem_cat keys_setdefault_eq in_cons.
case: ifP => [k_in|_]; last by rewrite mem_rcons in_cons orbA [_ || (k' == k)]orbC.
by case: (eqVneq k' k) => [->|]; rewrite ?k_in ?orbT.
Qed.

Lemma loop_keys (h : seq str) (rest : seq str) (d : dict) (i : nat) :
  {subset h <= keys d} ->
  exists2 d', loop (State (Some h) d) i.+1 rest = Some (State (Some h) d')
    & keys d' = keys d.
Proof.
elim: rest d i => [|l rest IHr] d i sub_h /=; first by exists d.
have [d1 row1 keys1] := add_row_total (fields l) sub_h.
have sub1: {subset h <= keys d1} by move=> k; rewrite keys1; apply: sub_h.
have [d' loop' keys'] := IHr d1 i.+1 sub1.
by exists d'; rewrite /step /= ?row1 /= ?keys' ?keys1.
Qed.

End LoadMore.

Section LoadExtras.

Import Load311 Analysis311.

(** X2.  Whatever the lines are, the dictionary the loading loop builds has
    each name of the header exactly once as a key and no other key: data[k]
    is a list for every k of the header and raises KeyError for every other
    k.  An empty file gives the empty dictionary. *)
Theorem load_keys (l0 : str) (rest : seq str) :
  load [::] = Some [::] /\
  exists d : dict,
    [/\ load (l0 :: rest) = Some d, uniq (keys d), keys d =i fields l0,
        forall k, k \in fields l0 -> exists v, lookup d k = Val v
      & forall k, k \notin fields l0 -> lookup d k = Exc Key_error].
Proof.
split=> //; set h := fields l0.
have [_ sub_h] := keys_foldl_setdefault h [::].
have [d loop_d keys_d] := loop_keys rest 0 sub_h.
have mem_d: keys d =i h by move=> k; rewrite keys_d mem_keys_foldl.
exists d; split=> //.
- by rewrite /load /= /step /= -/h loop_d.
- by rewrite keys_d; apply: uniq_keys_foldl.
- move=> k; rewrite -mem_d -get_keys /lookup.
  by case: (get d k) => // v _; exists v.
- by move=> k; rewrite -mem_d -get_keys /lookup; case: (get d k).
Qed.

(** X3.  With pairwise distinct header names, column k holds, in order, the
    field at k's position of exactly those data lines that have a field
    there.  So a line with too few fields leaves the later columns short:
    columns further right are never longer than columns further left, and
    the first column has one entry per data line, which makes
    len(data['Unique Key']) the number of data lines when that name comes
    first in the header. *)
Theorem load_ragged (l0 : str) (rest : seq str) :
  uniq (fields l0) ->
  exists d : dict,
    [/\ load (l0 :: rest) = Some d,
        forall k, k \in fields l0 ->
          get d k =
            Some [seq nth [::] (fields l) (index k (fields l0))
                 | l <- rest & index k (fields l0) < size (fields l)],
        forall k1 k2 v1 v2, k1 \in fields l0 -> k2 \in fields l0 ->
          index k1 (fields l0) <= index k2 (fields l0) ->
          get d k1 = Some v1 -> get d k2 = Some v2 -> size v2 <= size v1
      & forall h', fields l0 = py "Unique Key" :: h' ->
          n_requests d = Val (size rest)].
Proof.
move=> uniq_h; have [d [load_d keys_d get_d]] := loadP rest uniq_h.
have col k : k \in fields l0 ->
    get d k = Some [seq nth [::] (fields l) (index k (fields l0))
                   | l <- rest & index k (fields l0) < size (fields l)].
  move=> k_in; rewrite get_d //; congr (Some (map _ _)).
  by apply: eq_filter => l; rewrite /reaches k_in.
exists d; split=> // [k1 k2 v1 v2 in1 in2 le12 | h' eq_h].
  rewrite !col // => -[<-] [<-]; rewrite !size_map !size_filter.
  by apply: sub_count => l /=; apply: leq_ltn_trans.
rewrite /n_requests /lookup col ?eq_h ?mem_head //= size_map.
congr (Val _); apply/eqP; rewrite size_filter -all_count.
by apply/allP => l _; rewrite /fields size_split.
Qed.

(** X4.  line.strip() removes tabs as well as the newline, so white space
    around a line, empty fields at its end included, does not count: the
    fields of w1 + s + w2 are those of s when w1 and w2 are white space,
    and a line has one more field than its stripped text has tabs. *)
Theorem fields_strip (w1 s w2 : str) :
  all isspace w1 -> all isspace w2 ->
  fields (w1 ++ s ++ w2) = fields s /\
  size (fields s) = (count_mem tab (strip s)).+1.
Proof.
by move=> sp1 sp2; rewrite /fields strip_space // size_split.
Qed.

Lemma fields_strip_witness :
  [/\ all isspace [::], all isspace [:: tab; tab; 10%num]
    & fields (py "a" ++ [:: tab; tab; 10%num]) = [:: py "a"]].
Proof.
have sp1 : all isspace [::] by [].
have sp2 : all isspace [:: tab; tab; 10%num] by [].
split; [exact: sp1 | exact: sp2 |].
by have [-> _] := fields_strip (py "a") sp1 sp2.
Defined.

Lemma load_ragged_witness :
  uniq (fields (head [::] sample_lines)) /\
  exists d : dict, load sample_lines = Some d /\ n_requests d = Val 3.
Proof.
have uniq_h : uniq (fields (head [::] sample_lines)) by vm_compute.
split; first exact: uniq_h.
have [d [load_d _ _ count_d]] := load_ragged (behead sample_lines) uniq_h.
by exists d; split; [exact: load_d | apply: count_d; vm_compute].
Defined.

End LoadExtras.

(* --------------------------------------------------------------------- *)
(* Counting complaints and channels                                       *)
(* --------------------------------------------------------------------- *)

Section CountingFacts.

Import Load311 Analysis311.

Variable V : Type.
Implicit Types (c : seq (str * V)) (k : str) (v : V).

Lemma cget_keys c k : isSome (cget c k) = (k \in unzip1 c).
Proof.
elim: c => [|[k' v] c IHc] //=.
by rewrite in_cons eq_sym; case: eqP.
Qed.

Lemma cget_cset c k k' v :
  cget (cset c k v) k' = if k' == k then Some v else cget c k'.
Proof.
elim: c => [|[k0 v0] c IHc] /=; first by rewrite eq_sym.
case: (eqVneq k0 k) => [->|neq0] /=; first by rewrite eq_sym; case: eqP.
by rewrite IHc; case: (eqVneq k0 k') => // <-; rewrite (negPf neq0).
Qed.

Lemma keys_cset c k v :
  unzip1 (cset c k v) = if k \in unzip1 c then unzip1 c else rcons (unzip1 c) k.
Proof.
elim: c => [|[k0 v0] c IHc] //=.
rewrite in_cons [k == k0]eq_sym; case: eqP => //= _.
by rewrite IHc; case: ifP.
Qed.

Lemma cset_fresh c k v : k \notin unzip1 c -> cset c k v = rcons c (k, v).
Proof.
elim: c => [|[k0 v0] c IHc] //=.
rewrite in_cons negb_or [k == k0]eq_sym.
by move=> /andP[/negPf-> /IHc->].
Qed.

Lemma cset_rcons c k v0 v :
  k \notin unzip1 c -> cset (rcons c (k, v0)) k v = rcons c (k, v).
Proof.
elim: c => [|[k1 v1] c IHc] /=; first by rewrite eqxx.
rewrite in_cons negb_or [k == k1]eq_sym.
by move=> /andP[/negPf-> /IHc->].
Qed.

Lemma foldl_cset (items acc : seq (str * V)) :
  uniq (unzip1 acc ++ unzip1 items) ->
  foldl (fun c kv => cset c kv.1 kv.2) acc items = acc ++ items.
Proof.
elim: items acc => [|[k v] items IHi] acc /=; first by rewrite !cats0.
rewrite -cat_rcons => uniq_i.
have k_notin: k \notin unzip1 acc.
  by move: uniq_i; rewrite cat_uniq rcons_uniq => /and3P[/andP[]].
by rewrite cset_fresh // IHi -?cat_rcons // /unzip1 map_rcons.
Qed.

Lemma dict_of_uniq (items : seq (str * V)) :
  uniq (unzip1 items) -> dict_of items = items.
Proof. by move=> uniq_i; rewrite /dict_of foldl_cset. Qed.

End CountingFacts.

Section ComplaintFacts.

Import Load311 Analysis311.

Implicit Types (c : seq (str * nat)) (k x : str).

Lemma count_stepE c x :
  count_step c x = Val (cset c x (odflt 0 (cget c x)).+1).
Proof.
rewrite /count_step /csetdefault.
case get_x: (cget c x) (cget_keys c x) => [n|] /= /esym in_x.
  by rewrite get_x.
have /negbT x_notin := in_x.
have ->: cget (rcons c (x, 0)) x = Some 0.
  by rewrite -(cset_fresh 0 x_notin) cget_cset eqxx.
by rewrite cset_rcons // cset_fresh.
Qed.

Lemma sum_cset c k n :
  \sum_(kv <- cset c k n) kv.2 + odflt 0 (cget c k) = \sum_(kv <- c) kv.2 + n.
Proof.
elim: c => [|[k0 n0] c IHc] /=.
  by rewrite big_cons !big_nil /= !addn0 add0n.
case: eqP => _ /=; rewrite !big_cons /=.
  by rewrite addnC addnA [RHS]addnAC.
by rewrite -addnA IHc addnA.
Qed.

Lemma complaint_counts_loopP (xs : seq str) c :
  uniq (unzip1 c) ->
  exists c', [/\ complaint_counts_loop c xs = Val c', uniq (unzip1 c'),
    forall k, cget c' k =
      if k \in xs then Some (odflt 0 (cget c k) + count_mem k xs)
      else cget c k
    & \sum_(kv <- c') kv.2 = \sum_(kv <- c) kv.2 + size xs].
Proof.
elim: xs c => [|x xs IHx] c uniq_c /=.
  by exists c; split=> //; rewrite addn0.
rewrite count_stepE /=; set c1 := cset c x _.
have uniq1: uniq (unzip1 c1).
  rewrite keys_cset; case: ifP => // /negbT x_notin.
  by rewrite rcons_uniq x_notin.
have [c' [loop' uniq' get' sum']] := IHx c1 uniq1.
exists c'; split=> // [k|].
  rewrite get' cget_cset in_cons [x == k]eq_sym.
  case: (eqVneq k x) => [->|neq] /=; last by rewrite add0n.
  case: ifP => [_|/negbT/count_memPn->]; first by rewrite add1n addnS addSn.
  by rewrite addn0 addn1.
apply/eqP; rewrite sum' -(eqn_add2r (odflt 0 (cget c x))) addnAC sum_cset.
by rewrite -!addnA eqn_add2l !addSn addnC.
Qed.

Lemma pairwise_index (T : eqType) (s : seq T) :
  uniq s -> pairwise (fun a b => index a s < index b s) s.
Proof.
move=> uniq_s; case: s uniq_s => [|x0 s] // uniq_s.
apply/(pairwiseP x0) => i j; rewrite !inE => lt_i lt_j lt_ij.
by rewrite !index_uniq.
Qed.

Lemma printed_from (m i : nat) (top : seq (str * nat)) :
  [seq kv.2 | kv <- zip (iota i (size top)) top & kv.1 < m] =
  take (m - i) top.
Proof.
elim: top i => [|kv top IHt] i //=.
case: ltnP => [lt_i|le_i] /=; rewrite IHt.
  by rewrite -[m - i]prednK ?subn_gt0 //= -subnS.
have /eqP-> : m - i == 0 by rewrite subn_eq0.
have /eqP-> : m - i.+1 == 0 by rewrite subn_eq0 leqW.
by rewrite take0.
Qed.

Lemma printed_take (top : seq (str * nat)) : printed top = take 5 top.
Proof. by rewrite /printed printed_from subn0. Qed.

End ComplaintFacts.

Section CountingExtras.

Import Load311 Analysis311.

(** X5.  When data['Complaint Type'] is the list xs, the counting loop ends
    without a KeyError with a dictionary that has every complaint of xs
    exactly once as a key, maps it to its number of occurrences in xs, has
    no other key, and whose counts add up to len(xs). *)
Theorem complaint_counts_exact (d : dict) (xs : seq str) :
  lookup d (py "Complaint Type") = Val xs ->
  exists c : seq (str * nat),
    [/\ complaint_counts d = Val c, uniq (unzip1 c),
        forall k, cget c k = if k \in xs then Some (count_mem k xs) else None
      & \sum_(kv <- c) kv.2 = size xs].
Proof.
move=> get_xs; rewrite /complaint_counts get_xs /=.
have [c [loop_c uniq_c get_c sum_c]] := @complaint_counts_loopP xs [::] isT.
exists c; split=> //.
by rewrite sum_c big_nil add0n.
Qed.

Lemma complaint_counts_exact_witness :
  lookup sample_data (py "Complaint Type")
    = Val [:: py "Noise"; py "Noise"; py "Heat"] /\
  exists c : seq (str * nat),
    [/\ complaint_counts sample_data = Val c,
        cget c (py "Noise") = Some 2 & cget c (py "Water") = None].
Proof.
have get_xs : lookup sample_data (py "Complaint Type")
    = Val [:: py "Noise"; py "Noise"; py "Heat"] by vm_compute.
split; first exact: get_xs.
have [c [counts_c _ get_c _]] := complaint_counts_exact get_xs.
by exists c; split; [exact: counts_c | rewrite get_c | rewrite get_c].
Defined.

(** X6.  On a dictionary of counts (keys pairwise distinct) top_complaints
    holds the same items, largest count first, and items with equal counts
    keep the order they have in the dictionary (sorted is stable, also with
    reverse=True).  The lines printed are its first five items, and no
    complaint left out has a larger count than a printed one. *)
Theorem top_complaints_order (c : seq (str * nat)) :
  uniq (unzip1 c) ->
  [/\ perm_eq (top_complaints c) c,
      sorted (fun a b => (b.2 <= a.2)
                && ((a.2 <= b.2) ==> (index a c < index b c)))
             (top_complaints c),
      printed (top_complaints c) = take 5 (top_complaints c)
    & forall a b, a \in printed (top_complaints c) ->
        b \in top_complaints c -> b \notin printed (top_complaints c) ->
        b.2 <= a.2].
Proof.
move=> uniq_c; pose leT := fun a b : str * nat => b.2 <= a.2.
have total_le : total leT by move=> a b; apply: leq_total.
have trans_le : transitive leT by move=> b a e ba eb; apply: leq_trans eb ba.
have uniq_pairs : uniq c by apply: map_uniq uniq_c.
have top_sort : top_complaints c = sort leT c.
  rewrite /top_complaints dict_of_uniq //.
  by rewrite (perm_uniq (perm_map _ (permEl (perm_sort _ _)))).
rewrite printed_take top_sort; split=> //; first by rewrite perm_sort.
  exact: sort_pairwise_stable total_le _ (pairwise_index uniq_pairs).
move=> a b a_in b_in b_notin.
have: pairwise leT (sort leT c) by rewrite -sorted_pairwise // sort_sorted.
rewrite -{1}(cat_take_drop 5 (sort leT c)) pairwise_cat => /and3P[+ _ _].
move/allrelP; apply=> //.
by move: b_in; rewrite -{1}(cat_take_drop 5 (sort leT c)) mem_cat (negPf b_notin).
Qed.

Lemma top_complaints_order_witness :
  uniq (unzip1 [:: (py "Heat", 1); (py "Noise", 2)]) /\
  printed (top_complaints [:: (py "Heat", 1); (py "Noise", 2)])
    = [:: (py "Noise", 2); (py "Heat", 1)].
Proof.
have uniq_c : uniq (unzip1 [:: (py "Heat", 1); (py "Noise", 2)]) by [].
split; first exact: uniq_c.
by have [_ _ -> _] := top_complaints_order uniq_c.
Defined.

(** X7.  When data['Open Data Channel Type'] is the list l, the channel
    cell reports every channel of l exactly once, each with a count of at
    least one and with len(l) as total, and the counts reported add up to
    len(l): the shares printed cover every request once. *)
Theorem channel_counts_total (d : dict) (l : seq str) :
  lookup d (py "Open Data Channel Type") = Val l ->
  exists rows : seq (str * nat * nat),
    [/\ channel_counts d = Val rows,
        uniq [seq r.1.1 | r <- rows],
        [seq r.1.1 | r <- rows] =i l,
        all (fun r => (0 < r.1.2) && (r.2 == size l)) rows
      & \sum_(r <- rows) r.1.2 = size l].
Proof.
move=> get_l; rewrite /channel_counts get_l /=.
set chs := rev (undup (rev l)).
have uniq_chs : uniq chs by rewrite rev_uniq undup_uniq.
have mem_chs : chs =i l by move=> k; rewrite mem_rev mem_undup mem_rev.
eexists; split; first by [].
- by rewrite -map_comp map_id_in.
- by move=> k; rewrite -map_comp map_id_in.
- apply/allP => r /mapP[ch ch_in ->] /=.
  by rewrite eqxx andbT -has_count has_pred1 -mem_chs.
rewrite big_map /=.
have perm_chs : perm_eq chs (undup l).
  by apply: uniq_perm; rewrite ?undup_uniq // => k; rewrite mem_chs mem_undup.
rewrite (perm_big _ perm_chs) /= -[RHS]sum1_size.
rewrite -(big_undup_iterop_count _ l xpredT (fun=> 1)).
apply: eq_bigr => ch _; rewrite Monoid.iteropE.
by elim: (count_mem ch l) => //= n <-.
Qed.

Lemma channel_counts_total_witness :
  lookup sample_data (py "Open Data Channel Type")
    = Val [:: py "ONLINE"; py "PHONE"; py "ONLINE"] /\
  exists rows : seq (str * nat * nat),
    channel_counts sample_data = Val rows /\ \sum_(r <- rows) r.1.2 = 3.
Proof.
have get_l : lookup sample_data (py "Open Data Channel Type")
    = Val [:: py "ONLINE"; py "PHONE"; py "ONLINE"] by vm_compute.
split; first exact: get_l.
have [rows [chan_r _ _ _ sum_r]] := channel_counts_total get_l.
by exists rows.
Defined.

End CountingExtras.

(* --------------------------------------------------------------------- *)
(* Splitting timestamps                                                   *)
(* --------------------------------------------------------------------- *)

Section SplitFacts.

Import Load311 Analysis311.

Lemma split_notin (sep : char) (a : str) :
  sep \notin a -> split sep a = [:: a].
Proof.
elim: a => [|c a IHa] //=; rewrite in_cons negb_or eq_sym.
by move=> /andP[/negPf-> /IHa->].
Qed.

Lemma split_cat (sep : char) (a b : str) :
  sep \notin a -> split sep (a ++ sep :: b) = a :: split sep b.
Proof.
elim: a => [|c a IHa] /=; first by rewrite eqxx.
rewrite in_cons negb_or eq_sym.
by move=> /andP[/negPf-> /IHa->].
Qed.

Lemma split_ws_space (w : str) : all isspace w -> split_ws w = [::].
Proof. by elim: w => [|c w IHw] //= /andP[-> /IHw]. Qed.

Lemma split_ws_cons (c c' : char) (s : str) :
  ~~ isspace c -> ~~ isspace c' ->
  split_ws (c :: c' :: s) =
    if split_ws (c' :: s) is w :: ws then (c :: w) :: ws else [:: [:: c]].
Proof. by move=> /negPf nc /negPf nc'; rewrite /= nc nc'. Qed.

Lemma split_ws_word (w : str) :
  w != [::] -> ~~ has isspace w -> split_ws w = [:: w].
Proof.
elim: w => [|c w IHw] // _; rewrite [has _ _]/= negb_or => /andP[nc sp_w].
case: w IHw sp_w => [|c' w] IHw sp_w; first by rewrite /= (negPf nc).
have nc' : ~~ isspace c' by move: sp_w; rewrite /= negb_or => /andP[].
by rewrite split_ws_cons // IHw.
Qed.

Lemma split_ws_cat (w s : str) (sp : char) :
  w != [::] -> ~~ has isspace w -> isspace sp ->
  split_ws (w ++ sp :: s) = w :: split_ws s.
Proof.
move=> + + sp_sp.
elim: w => [|c w IHw] // _; rewrite [has _ _]/= negb_or => /andP[nc sp_w].
case: w IHw sp_w => [|c' w] IHw sp_w; first by rewrite /= (negPf nc) sp_sp.
have nc' : ~~ isspace c' by move: sp_w; rewrite /= negb_or => /andP[].
by rewrite !cat_cons split_ws_cons // -cat_cons IHw.
Qed.

End SplitFacts.

(* --------------------------------------------------------------------- *)
(* The date cells                                                         *)
(* --------------------------------------------------------------------- *)

Section DateFacts.

Import Load311 Analysis311.
Import Order.POrderTheory Order.TotalTheory.

Variable py_int : str -> option int.

Lemma last_day_stepE (l : int) (ts : str) :
  last_day_step py_int l ts =
  rbind (created_day py_int ts) (fun z => Val (Order.max l z)).
Proof.
rewrite /last_day_step /created_day.
case: (unpack3 (split_ws ts)) => [[[date time] am_pm]|] //=.
case: (unpack3 (split slash date)) => [[[month day] year]|] //=.
rewrite /int_; case: (py_int day) => [z|] //=.
by rewrite maxElt; case: ifP.
Qed.

Lemma last_day_loopP (created : seq str) (l m : int) :
  last_day_loop py_int l created = Val m ->
  [/\ (l <= m)%R,
      forall ts, ts \in created ->
        exists2 z, created_day py_int ts = Val z & (z <= m)%R
    & m = l \/ exists2 ts, ts \in created & created_day py_int ts = Val m].
Proof.
elim: created l => [|ts created IHc] l /=.
  by case=> <-; split=> //; left.
rewrite last_day_stepE; case day_ts: (created_day py_int ts) => [z|] //=.
move/IHc => [le_m days_le attained]; split.
- by apply: le_trans le_m; rewrite le_max lexx.
- move=> ts'; rewrite in_cons => /orP[/eqP->|]; last exact: days_le.
  exists z => //; apply: le_trans le_m.
  by rewrite le_max lexx orbT.
case: attained => [->|[ts' ts'_in day_ts']]; last first.
  by right; exists ts' => //; rewrite in_cons ts'_in orbT.
rewrite maxElt; case: ifP => _; last by left.
by right; exists ts; rewrite ?mem_head.
Qed.

Lemma last_day_loop_total (created : seq str) (l : int) :
  (forall ts, ts \in created -> exists z, created_day py_int ts = Val z) ->
  exists m, last_day_loop py_int l created = Val m.
Proof.
elim: created l => [|ts created IHc] l days /=; first by exists l.
have [z day_ts] := days ts (mem_head _ _).
rewrite last_day_stepE day_ts /=; apply: IHc => ts' ts'_in.
by apply: days; rewrite in_cons ts'_in orbT.
Qed.

(** The accumulator of a "days open" loop only collects. *)
Lemma days_open_loop_acc d i closed acc :
  days_open_loop py_int d i closed acc =
  rbind (days_open_loop py_int d i closed [::]) (fun tl => Val (acc ++ tl)).
Proof.
elim: closed i acc => [|ts closed IHc] i acc /=; first by rewrite cats0.
case: ifP => _; last exact: IHc.
case: (day_diff py_int d i ts) => [z|] //=.
rewrite IHc [in RHS]IHc; case: (days_open_loop _ _ _ _ [::]) => [tl|] //=.
by rewrite cat_rcons.
Qed.

Lemma days_open2_loop_acc d i statuses acc :
  days_open2_loop py_int d i statuses acc =
  rbind (days_open2_loop py_int d i statuses [::])
        (fun tl => Val (acc ++ tl)).
Proof.
elim: statuses i acc => [|st statuses IHs] i acc /=; first by rewrite cats0.
case: ifP => _; last exact: IHs.
case: (lookup d _) => [closed|] //=.
case: (getitem closed i) => [ts|] //=.
case: ifP => _; last exact: IHs.
case: (day_diff py_int d i ts) => [z|] //=.
rewrite IHs [in RHS]IHs; case: (days_open2_loop _ _ _ _ [::]) => [tl|] //=.
by rewrite cat_rcons.
Qed.

Lemma size_days_open_loop d i closed tl :
  days_open_loop py_int d i closed [::] = Val tl ->
  size tl = count (fun ts => ts != [::]) closed.
Proof.
elim: closed i tl => [|ts closed IHc] i tl /=; first by case=> <-.
case: ifP => _; last by rewrite add0n; apply: IHc.
case: (day_diff py_int d i ts) => [z|] //=.
rewrite days_open_loop_acc.
case loop_c: (days_open_loop _ _ _ _ [::]) => [tl'|] //= -[<-] /=.
by rewrite add1n (IHc _ _ loop_c).
Qed.

Lemma getitem_nth (T : Type) (x0 : T) (l : seq T) (i : nat) :
  i < size l -> getitem l i = Val (nth x0 l i).
Proof. by move=> lt_i; rewrite /getitem (drop_nth x0). Qed.

Lemma getitem_out (T : Type) (l : seq T) (i : nat) :
  size l <= i -> getitem l i = Exc Index_error.
Proof. by move=> le_i; rewrite /getitem drop_oversize. Qed.

(** TAKE 2 keeps, of the entries of the first loop, those of the rows whose
    status is 'Closed': one flag per visited row with a closed date. *)
Lemma days_open2_mask d closed statuses i ds1 :
  lookup d (py "Closed Date") = Val closed ->
  i + size statuses <= size closed ->
  days_open_loop py_int d i (drop i closed) [::] = Val ds1 ->
  days_open2_loop py_int d i statuses [::] =
    Val (mask [seq kv.1 == py "Closed"
                 | kv <- zip statuses (drop i closed) & kv.2 != [::]] ds1).
Proof.
move=> get_closed.
elim: statuses i ds1 => [|st statuses IHs] i ds1 /=.
  by move=> _ _; case: (drop i closed).
rewrite addnS => lt_i; have lt_i' : i < size closed.
  by apply: leq_trans lt_i; rewrite ltnS leq_addr.
rewrite (drop_nth [::]) //= get_closed /= (getitem_nth [::]) //=.
move: lt_i; rewrite -addSn => /IHs {}IHs.
case: ifP => _; last first.
  by case: ifP => _ /IHs.
case: (day_diff py_int d i _) => [z|] //=.
rewrite days_open_loop_acc days_open2_loop_acc.
case loop1: (days_open_loop _ _ _ _ [::]) => [tl1|] //= -[<-] /=.
by rewrite (IHs _ loop1); case: ifP.
Qed.

Lemma timestamp_ofE (month day year time am_pm : str) :
  timestamp_of month day year time am_pm =
  (month ++ slash :: day ++ slash :: year) ++ 32%num :: time ++ 32%num :: am_pm.
Proof. by rewrite /timestamp_of -catA /= -catA. Qed.

Lemma split_ws_timestamp (month day year time am_pm : str) :
  all (fun s => ~~ has isspace s) [:: month; day; year; time; am_pm] ->
  time != [::] -> am_pm != [::] ->
  split_ws (timestamp_of month day year time am_pm) =
    [:: month ++ slash :: day ++ slash :: year; time; am_pm].
Proof.
case/and5P=> sp_m sp_d sp_y sp_t /andP[sp_a _] t_n0 a_n0.
have date_n0 : month ++ slash :: day ++ slash :: year != [::].
  by case: (month).
have sp_date : ~~ has isspace (month ++ slash :: day ++ slash :: year).
  by rewrite has_cat /= has_cat /= !negb_or sp_m sp_d sp_y.
by rewrite timestamp_ofE !split_ws_cat // split_ws_word.
Qed.

Lemma split_slash_date (month day rest : str) :
  slash \notin month -> slash \notin day -> slash \notin rest ->
  split slash (month ++ slash :: day ++ slash :: rest) = [:: month; day; rest].
Proof. by move=> sl_m sl_d sl_r; rewrite !split_cat // split_notin. Qed.

Lemma get_mem (d : dict) (k : str) (v : seq str) :
  get d k = Some v -> (k, v) \in d.
Proof.
elim: d => [|[k' v'] d IHd] //=; case: eqP => [-> [->]|_ /IHd].
  by rewrite mem_head.
by rewrite in_cons orbC => ->.
Qed.

Lemma all_nil_foldl (h : seq str) (d : dict) :
  all (fun kv => kv.2 == [::]) d ->
  all (fun kv => kv.2 == [::]) (foldl setdefault d h).
Proof.
elim: h d => [|k h IHh] d //= all_d; apply: IHh.
by rewrite /setdefault; case: (get d k) => //; rewrite all_rcons.
Qed.

Lemma lookup_header_only (h : seq str) (k : str) :
  k \in h -> lookup (foldl setdefault [::] h) k = Val [::].
Proof.
move=> k_in; have [_ /(_ k k_in)] := keys_foldl_setdefault h [::].
rewrite -get_keys /lookup; case get_k: (get _ k) => [v|] // _.
have := allP (all_nil_foldl h (isT : all _ [::])) _ (get_mem get_k).
by move=> /eqP /= ->.
Qed.

Lemma setitem_fresh (w : seq (nat * int)) (i : nat) (z : int) :
  i \notin unzip1 w -> setitem w i z = rcons w (i, z).
Proof.
elim: w => [|[j z'] w IHw] //=.
rewrite in_cons negb_or [i == j]eq_sym.
by move=> /andP[/negPf-> /IHw->].
Qed.

(** The "closed before opened" loop records the negative differences of
    the first loop, each under its row index. *)
Lemma weird_loopP d closed i w tl :
  days_open_loop py_int d i closed [::] = Val tl ->
  all (fun kv => kv.1 < i) w ->
  exists wnew,
    [/\ weird_loop py_int d i closed w = Val (w ++ wnew),
        unzip2 wnew = [seq z <- tl | (z < 0)%R],
        sorted ltn (unzip1 wnew),
        all (fun kv => i <= kv.1 < i + size closed) wnew
      & forall j z, (j, z) \in wnew ->
          day_diff py_int d j (nth [::] closed (j - i)) = Val z /\ (z < 0)%R].
Proof.
elim: closed i w tl => [|ts closed IHc] i w tl /=.
  by case=> <- _; exists [::]; split=> //; rewrite cats0.
have step tl' w1 :
    days_open_loop py_int d i.+1 closed [::] = Val tl' ->
    all (fun kv => kv.1 < i.+1) w1 ->
    exists wnew,
      [/\ weird_loop py_int d i.+1 closed w1 = Val (w1 ++ wnew),
          unzip2 wnew = [seq z <- tl' | (z < 0)%R],
          sorted ltn (unzip1 wnew),
          all (fun kv => i < kv.1 < i + (size closed).+1) wnew
        & forall j z, (j, z) \in wnew ->
            day_diff py_int d j (nth [::] (ts :: closed) (j - i)) = Val z
            /\ (z < 0)%R].
  move=> loop' lt_w1; have [wnew [-> vals sorted_w bounds rows]] := IHc _ _ _ loop' lt_w1.
  exists wnew; split=> //; first by rewrite addnS -addSn.
  move=> j z jz_in; have /andP[lt_j _] := allP bounds _ jz_in.
  by rewrite -(subnSK lt_j) /=; apply: rows.
have weaken w0 : all (fun kv => kv.1 < i) w0 ->
    all (fun kv : nat * int => kv.1 < i.+1) w0.
  by apply: sub_all => kv; apply: ltnW.
have weaken' wnew :
    all (fun kv : nat * int => i < kv.1 < i + (size closed).+1) wnew ->
    all (fun kv : nat * int => i <= kv.1 < i + (size closed).+1) wnew.
  by apply: sub_all => kv /andP[/ltnW-> ->].
case: ifP => _; last first.
  move=> loop' lt_w; have [wnew [-> vals sorted_w bounds rows]] := step _ _ loop' (weaken _ lt_w).
  by exists wnew; split=> //; apply: weaken'.
case diff_i: (day_diff py_int d i ts) => [z|] //=.
rewrite days_open_loop_acc.
case loop': (days_open_loop _ _ _ _ [::]) => [tl'|] //= -[<-] lt_w /=.
case: ifP => neg_z; last first.
  have [wnew [-> vals sorted_w bounds rows]] := step _ _ loop' (weaken _ lt_w).
  by exists wnew; split=> //; apply: weaken'.
have i_notin : i \notin unzip1 w.
  apply/negP => /mapP[kv kv_in eq_i].
  by have := allP lt_w _ kv_in; rewrite -eq_i ltnn.
have lt_w1 : all (fun kv => kv.1 < i.+1) (setitem w i z).
  by rewrite setitem_fresh // all_rcons /= ltnSn weaken.
have [wnew [-> vals sorted_w bounds rows]] := step _ _ loop' lt_w1.
exists ((i, z) :: wnew); split=> /=.
- by rewrite setitem_fresh // cat_rcons.
- by rewrite vals.
- rewrite path_sortedE; first by move=> b a c; apply: ltn_trans.
  rewrite sorted_w andbT all_map; apply: sub_all bounds => kv /=.
  by case/andP.
- by rewrite leqnn -{1}[i]addn0 ltn_add2l /= weaken'.
move=> j z'; rewrite in_cons => /orP[/eqP[-> ->]|]; last exact: rows.
by rewrite subnn /= diff_i.
Qed.

Lemma foldl_min_le (z : int) (zs : seq int) (x : int) :
  x \in z :: zs -> (foldl Order.min z zs <= x)%R.
Proof.
elim: zs z x => [|y zs IHz] z x /=; first by rewrite inE => /eqP->.
have le_min' : (foldl Order.min (Order.min z y) zs <= Order.min z y)%R.
  by apply: IHz; rewrite mem_head.
rewrite !in_cons orbA => /orP[|x_in]; last by apply: IHz; rewrite in_cons x_in orbT.
case/orP=> /eqP->; apply: le_trans le_min' _.
  by rewrite ge_min lexx.
by rewrite ge_min lexx orbT.
Qed.

Lemma foldl_min_mem (z : int) (zs : seq int) :
  foldl Order.min z zs \in z :: zs.
Proof.
elim: zs z => [|y zs IHz] z /=; first by rewrite mem_head.
have := IHz (Order.min z y); rewrite !in_cons => /orP[/eqP->|->]; last by rewrite !orbT.
by rewrite minElt; case: ifP => _; rewrite eqxx ?orbT.
Qed.

Lemma foldl_max_ge (z : int) (zs : seq int) (x : int) :
  x \in z :: zs -> (x <= foldl Order.max z zs)%R.
Proof.
elim: zs z x => [|y zs IHz] z x /=; first by rewrite inE => /eqP->.
have le_max' : (Order.max z y <= foldl Order.max (Order.max z y) zs)%R.
  by apply: IHz; rewrite mem_head.
rewrite !in_cons orbA => /orP[|x_in]; last by apply: IHz; rewrite in_cons x_in orbT.
case/orP=> /eqP->; apply: le_trans le_max'.
  by rewrite le_max lexx.
by rewrite le_max lexx orbT.
Qed.

Lemma foldl_max_mem (z : int) (zs : seq int) :
  foldl Order.max z zs \in z :: zs.
Proof.
elim: zs z => [|y zs IHz] z /=; first by rewrite mem_head.
have := IHz (Order.max z y); rewrite !in_cons => /orP[/eqP->|->]; last by rewrite !orbT.
by rewrite maxElt; case: ifP => _; rewrite eqxx ?orbT.
Qed.

End DateFacts.

Section DateExtras.

Import Load311 Analysis311.
Import Order.POrderTheory Order.TotalTheory.

Variable py_int : str -> option int.

(** X8.  When data['Created Date'] is the list created, the "most recent
    day" cell returns a value exactly when every timestamp has three
    white-space separated parts, a date of three '/'-separated parts and a
    day that int() accepts.  The value is then at least 0 and at least
    the day of every timestamp, and it is 0 or the day of one of them:
    the largest day, whatever the months and years are. *)
Theorem last_day_is_max (d : dict) (created : seq str) :
  lookup d (py "Created Date") = Val created ->
  ((forall ts, ts \in created -> exists z, created_day py_int ts = Val z) ->
   exists m, last_day py_int d = Val m) /\
  forall m, last_day py_int d = Val m ->
    [/\ (0 <= m)%R,
        forall ts, ts \in created ->
          exists2 z, created_day py_int ts = Val z & (z <= m)%R
      & m = 0%R \/
        exists2 ts, ts \in created & created_day py_int ts = Val m].
Proof.
move=> get_c; rewrite /last_day get_c /=; split; last exact: last_day_loopP.
exact: last_day_loop_total.
Qed.

(** X9.  With the columns aligned up to len(data['Status']) rows, whenever
    the first "days open" cell returns its list, TAKE 2 returns exactly the
    entries of that list that belong to the rows whose status is 'Closed'
    (the first list has one entry per non-empty closed date, in row order;
    TAKE 2 keeps the entry of such a row when data['Status'] of the row is
    'Closed' and drops it otherwise).  So TAKE 2's list is a subsequence of
    the first, and where both cells print, TAKE 2 counts no more rows, its
    shortest time is not shorter and its longest time not longer. *)
Theorem days_open2_subseq (d : dict) (closed statuses : seq str)
    (ds1 : seq int) :
  lookup d (py "Closed Date") = Val closed ->
  lookup d (py "Status") = Val statuses ->
  size statuses <= size closed ->
  days_open py_int d = Val ds1 ->
  let kept := [seq kv.1 == py "Closed"
                 | kv <- zip statuses closed & kv.2 != [::]] in
  [/\ size ds1 = count (fun ts => ts != [::]) closed,
      days_open2 py_int d = Val (mask kept ds1),
      subseq (mask kept ds1) ds1
    & forall ds2 s1 s2, days_open2 py_int d = Val ds2 ->
        summary ds1 = Val s1 -> summary ds2 = Val s2 ->
        [/\ s2.1.1.2 <= s1.1.1.2, (s1.1.2 <= s2.1.2)%R & (s2.2 <= s1.2)%R]].
Proof.
move=> get_c get_s le_size; rewrite /days_open /days_open2 get_c get_s /=.
move=> loop1; set kept := map _ (filter _ _).
have loop1' := loop1; rewrite -[closed]drop0 in loop1'.
have le_size' : 0 + size statuses <= size closed by rewrite add0n.
have loop2 := days_open2_mask get_c le_size' loop1'.
rewrite drop0 -/kept in loop2.
have: subseq (mask kept ds1) ds1 by apply: mask_subseq.
move: (mask kept ds1) loop2 => ds2 loop2 sub21.
split; [exact: size_days_open_loop loop1 | exact: loop2 | exact: sub21 |].
move=> ds2' s1 s2; rewrite loop2 => -[<-].
case: ds1 sub21 {loop1 loop1' loop2} => [|z1 zs1] sub21 //.
case: ds2 sub21 => [|z2 zs2] sub21 // [<-] [<-].
have mem21 := mem_subseq sub21.
split; first exact: (size_subseq sub21).
- by apply: foldl_min_le; apply: mem21; apply: foldl_min_mem.
- by apply: foldl_max_ge; apply: mem21; apply: foldl_max_mem.
Qed.

(** X10.  Whenever the first "days open" cell returns its list, the "closed
    before opened" cell returns a dictionary whose values are exactly the
    negative entries of that list, in order, under strictly increasing row
    indexes: its length is the number of negative differences, and each
    entry i -> diff is the difference of row i. *)
Theorem weird_indexes_negative (d : dict) (closed : seq str) (ds : seq int) :
  lookup d (py "Closed Date") = Val closed ->
  days_open py_int d = Val ds ->
  exists w : seq (nat * int),
    [/\ weird_indexes py_int d = Val w,
        unzip2 w = [seq z <- ds | (z < 0)%R],
        sorted ltn (unzip1 w),
        size w = count (fun z => (z < 0)%R) ds
      & forall j z, (j, z) \in w ->
          [/\ j < size closed,
              day_diff py_int d j (nth [::] closed j) = Val z & (z < 0)%R]].
Proof.
move=> get_c; rewrite /days_open /weird_indexes get_c /= => loop1.
have [w [loop_w vals sorted_w bounds rows]] :=
  weird_loopP loop1 (isT : all _ [::]).
exists w; split=> //.
- by rewrite -size_filter -vals size_map.
move=> j z jz_in; have [diff_j neg_z] := rows j z jz_in.
by split=> //; [have /andP[] := allP bounds _ jz_in | rewrite -[j in nth _ _ j]subn0].
Qed.

(** X11.  On timestamps in the file's format month/day/year time am_pm the
    difference of a row is int(day of the closed date) - int(day of the
    created date): months, years and times are parsed and dropped, so any
    two dates with the same day of the month are zero days apart. *)
Theorem day_diff_format (d : dict) (created : seq str) (i : nat)
    (mc dc yc tc ac mo do yo to ao : str) :
  lookup d (py "Created Date") = Val created ->
  getitem created i = Val (timestamp_of mo do yo to ao) ->
  all (fun s => ~~ has isspace s) [:: mc; dc; yc; tc; ac] ->
  tc != [::] -> ac != [::] ->
  all (fun s => slash \notin s) [:: mc; dc; yc; mo; do; yo; to; ao] ->
  day_diff py_int d i (timestamp_of mc dc yc tc ac) =
    (c <~ int_ py_int dc ;; o <~ int_ py_int do ;; Val (c - o)%R).
Proof.
move=> get_c get_i sp_c t_n0 a_n0.
case/and5P=> sl_mc sl_dc sl_yc sl_mo /and5P[sl_do sl_yo sl_to sl_ao _].
rewrite /day_diff split_ws_timestamp //= split_slash_date //=.
rewrite get_c /= get_i /= /timestamp_of split_slash_date //.
by rewrite mem_cat in_cons mem_cat in_cons !negb_or sl_yo sl_to sl_ao.
Qed.

(** X12.  On a file that has only the header line (with the six columns
    the cells read), loading succeeds with empty columns: the request
    count and the last day are 0, no complaint or channel is reported, no
    row is "weird", and the closed-share cell and both "days open" cells
    stop with ZeroDivisionError. *)
Theorem header_only_file (l0 : str) :
  all (fun k => k \in fields l0)
      [:: py "Unique Key"; py "Created Date"; py "Closed Date"; py "Status";
          py "Complaint Type"; py "Open Data Channel Type"] ->
  exists d : dict,
    [/\ load [:: l0] = Some d,
        [/\ n_requests d = Val 0, last_day py_int d = Val 0%R,
            complaint_counts d = Val [::] & channel_counts d = Val [::]],
        weird_indexes py_int d = Val [::],
        closed_share d = Exc Zero_division_error
      & rbind (days_open py_int d) summary = Exc Zero_division_error /\
        rbind (days_open2 py_int d) summary = Exc Zero_division_error].
Proof.
case/and5P=> in_u in_cr in_cl in_s /and3P[in_co in_ch _].
exists (foldl setdefault [::] (fields l0)); split=> //.
- split.
  + by rewrite /n_requests lookup_header_only.
  + by rewrite /last_day lookup_header_only.
  + by rewrite /complaint_counts lookup_header_only.
  + by rewrite /channel_counts lookup_header_only.
- by rewrite /weird_indexes lookup_header_only.
- by rewrite /closed_share lookup_header_only.
by rewrite /days_open /days_open2 !lookup_header_only.
Qed.

End DateExtras.

Section DateWitnesses.

Import Load311 Analysis311.

(** X8 on the sample: the last day is found. *)
Lemma last_day_is_max_witness :
  lookup sample_data (py "Created Date")
    = Val [:: py "01/09/2021 11:56:15 AM"; py "01/09/2021 08:06:00 AM";
              py "01/07/2021 11:29:00 AM"] /\
  exists m, last_day int_digits sample_data = Val m.
Proof.
have get_c : lookup sample_data (py "Created Date")
    = Val [:: py "01/09/2021 11:56:15 AM"; py "01/09/2021 08:06:00 AM";
              py "01/07/2021 11:29:00 AM"] by vm_compute.
split; first exact: get_c.
have [total _] := last_day_is_max int_digits get_c; apply: total => ts.
by rewrite !inE => /or3P[] /eqP->; [exists 9%R | exists 9%R | exists 7%R].
Defined.

(** X9 on the sample, where the first cell returns [5, -8] and only row 0
    is 'Closed': TAKE 2 returns [5]. *)
Lemma days_open2_subseq_witness :
  [/\ lookup sample_data (py "Closed Date")
        = Val [:: py "01/14/2021 06:41:59 AM"; py "01/01/1900 12:00:00 AM";
                  [::]],
      lookup sample_data (py "Status")
        = Val [:: py "Closed"; py "Open"; py "Pending"],
      days_open int_digits sample_data = Val [:: 5%R; (-8)%R]
    & days_open2 int_digits sample_data = Val [:: 5%R]].
Proof.
have get_c : lookup sample_data (py "Closed Date")
    = Val [:: py "01/14/2021 06:41:59 AM"; py "01/01/1900 12:00:00 AM"; [::]]
  by vm_compute.
have get_s : lookup sample_data (py "Status")
    = Val [:: py "Closed"; py "Open"; py "Pending"] by vm_compute.
have days1 : days_open int_digits sample_data = Val [:: 5%R; (-8)%R]
  by vm_compute.
have [_ days2 _ _] := days_open2_subseq get_c get_s (leqnn 3) days1.
by split; [exact: get_c | exact: get_s | exact: days1 | rewrite days2].
Defined.

(** X10 on the sample: the one negative difference, of row 1. *)
Lemma weird_indexes_negative_witness :
  days_open int_digits sample_data = Val [:: 5%R; (-8)%R] /\
  exists w : seq (nat * int),
    weird_indexes int_digits sample_data = Val w /\ unzip2 w = [:: (-8)%R].
Proof.
have get_c : lookup sample_data (py "Closed Date")
    = Val [:: py "01/14/2021 06:41:59 AM"; py "01/01/1900 12:00:00 AM"; [::]]
  by vm_compute.
have days1 : days_open int_digits sample_data = Val [:: 5%R; (-8)%R]
  by vm_compute.
split; first exact: days1.
have [w [weird_w vals _ _ _]] := weird_indexes_negative get_c days1.
by exists w.
Defined.

(** X11 on row 1 of the sample: the sentinel 01/01/1900 is "-8 days"
    after 01/09/2021. *)
Lemma day_diff_format_witness :
  day_diff int_digits sample_data 1
    (timestamp_of (py "01") (py "01") (py "1900") (py "12:00:00") (py "AM"))
  = Val (-8)%R.
Proof.
have get_c : lookup sample_data (py "Created Date")
    = Val [:: py "01/09/2021 11:56:15 AM"; py "01/09/2021 08:06:00 AM";
              py "01/07/2021 11:29:00 AM"] by vm_compute.
have get_1 : getitem [:: py "01/09/2021 11:56:15 AM";
                         py "01/09/2021 08:06:00 AM";
                         py "01/07/2021 11:29:00 AM"] 1
    = Val (timestamp_of (py "01") (py "09") (py "2021") (py "08:06:00")
                        (py "AM")) by [].
by rewrite (day_diff_format int_digits get_c get_1).
Defined.

(** X12 on the header of the sample. *)
Lemma header_only_file_witness :
  exists d : dict,
    load [:: head [::] sample_lines] = Some d /\
    closed_share d = Exc Zero_division_error.
Proof.
have cols : all (fun k => k \in fields (head [::] sample_lines))
    [:: py "Unique Key"; py "Created Date"; py "Closed Date"; py "Status";
        py "Complaint Type"; py "Open Data Channel Type"] by vm_compute.
have [d [load_d _ _ share_d _]] := header_only_file int_digits cols.
by exists d.
Defined.

End DateWitnesses.
